(** * ABCBank: account opening, upgrades and the loan gate

    A shallow embedding of the classes of [ABCBank.ipynb] and the
    properties of its account-creation rules, decorators and loan
    application check.

    Conventions of the embedding:
    - a Python abstract base class is a type class whose methods are the
      abstract methods; a concrete subclass is a type with an instance;
    - a Python string is a [string], [+] on strings is [+:+] and [==] on
      strings is [String.eqb];
    - a Python [int] is a [Z] (unbounded on both sides), and [>], [<] are
      [Z.gtb], [Z.ltb]; the age, income and credit score of a customer are
      ints, as in the demonstration cell;
    - the dict of factories is a [gmap] with string keys, and [dict.get]
      is the lookup [!!]. *)

From Stdlib Require Import ZArith String List.
From stdpp Require Import gmap strings.

Local Open Scope string_scope.
Local Open Scope Z_scope.

(** ** Strategy pattern: the [Account] interface and its five variants *)

(** [class Account(metaclass=ABCMeta)] with the abstract method
    [account_type(self)]. *)
Class Account (A : Type) : Type :=
  account_type : A -> string.
#[global] Hint Mode Account ! : typeclass_instances.

(** The concrete accounts have no fields: each type has the single value
    built by the class's constructor call, e.g. [CurrentAccount()]. *)
Inductive CurrentAccount : Type := CurrentAccount_new.
Inductive HomeLoanAccount : Type := HomeLoanAccount_new.
Inductive CarLoanAccount : Type := CarLoanAccount_new.
Inductive PersonalLoanAccount : Type := PersonalLoanAccount_new.
Inductive SavingsAccount : Type := SavingsAccount_new.

#[global] Instance CurrentAccount_account_type : Account CurrentAccount :=
  fun _ => "Current Account Created".

#[global] Instance HomeLoanAccount_account_type : Account HomeLoanAccount :=
  fun _ => "Home Loan Account Created".

#[global] Instance CarLoanAccount_account_type : Account CarLoanAccount :=
  fun _ => "Car Loan Account Created".

#[global] Instance PersonalLoanAccount_account_type : Account PersonalLoanAccount :=
  fun _ => "Personal Loan Account Created".

#[global] Instance SavingsAccount_account_type : Account SavingsAccount :=
  fun _ => "Savings Account Created".

(** ** Abstract factory pattern *)

(** [class AccountFactory(metaclass=ABCMeta)] with the abstract method
    [create_account(self)]; what a factory creates is an account, so the
    class carries the created type and its [Account] instance. *)
Class AccountFactory (F : Type) : Type := {
  created : Type;
  created_account :: Account created;
  create_account : F -> created
}.
#[global] Hint Mode AccountFactory ! : typeclass_instances.

Inductive CurrentAccountFactory : Type := CurrentAccountFactory_new.
Inductive HomeLoanAccountFactory : Type := HomeLoanAccountFactory_new.
Inductive CarLoanAccountFactory : Type := CarLoanAccountFactory_new.
Inductive PersonalLoanAccountFactory : Type := PersonalLoanAccountFactory_new.
Inductive SavingsAccountFactory : Type := SavingsAccountFactory_new.

#[global] Instance CurrentAccountFactory_create : AccountFactory CurrentAccountFactory :=
  {| create_account := fun _ => CurrentAccount_new |}.

#[global] Instance HomeLoanAccountFactory_create : AccountFactory HomeLoanAccountFactory :=
  {| create_account := fun _ => HomeLoanAccount_new |}.

#[global] Instance CarLoanAccountFactory_create : AccountFactory CarLoanAccountFactory :=
  {| create_account := fun _ => CarLoanAccount_new |}.

#[global] Instance PersonalLoanAccountFactory_create :
  AccountFactory PersonalLoanAccountFactory :=
  {| create_account := fun _ => PersonalLoanAccount_new |}.

#[global] Instance SavingsAccountFactory_create : AccountFactory SavingsAccountFactory :=
  {| create_account := fun _ => SavingsAccount_new |}.

(** The values of the factory dict are objects of five different classes,
    known to the caller only as factories: a dict value is a factory
    object packed with the class it belongs to. *)
Record factory_object : Type := Factory {
  factory_class : Type;
  factory_methods :: AccountFactory factory_class;
  factory_self : factory_class
}.
Arguments Factory {factory_class factory_methods} factory_self.

(** ** Decorator pattern *)

(** [AccountDecorator.__init__(self, account)] stores the wrapped account;
    the four subclasses inherit it and override [account_type]. *)
Inductive AccountDecorator (A : Type) : Type :=
  AccountDecorator_new (account : A).
Inductive BronzeAccountDecorator (A : Type) : Type :=
  BronzeAccountDecorator_new (account : A).
Inductive SilverAccountDecorator (A : Type) : Type :=
  SilverAccountDecorator_new (account : A).
Inductive GoldAccountDecorator (A : Type) : Type :=
  GoldAccountDecorator_new (account : A).
Inductive DiscountedAccount (A : Type) : Type :=
  DiscountedAccount_new (account : A).
Arguments AccountDecorator_new {A} account.
Arguments BronzeAccountDecorator_new {A} account.
Arguments SilverAccountDecorator_new {A} account.
Arguments GoldAccountDecorator_new {A} account.
Arguments DiscountedAccount_new {A} account.

#[global] Instance AccountDecorator_account_type {A} `{Account A} :
  Account (AccountDecorator A) :=
  fun self => let 'AccountDecorator_new account := self in
    account_type account.

#[global] Instance BronzeAccountDecorator_account_type {A} `{Account A} :
  Account (BronzeAccountDecorator A) :=
  fun self => let 'BronzeAccountDecorator_new account := self in
    account_type account +:+ " with Bronze features".

#[global] Instance SilverAccountDecorator_account_type {A} `{Account A} :
  Account (SilverAccountDecorator A) :=
  fun self => let 'SilverAccountDecorator_new account := self in
    account_type account +:+ " with Silver features".

#[global] Instance GoldAccountDecorator_account_type {A} `{Account A} :
  Account (GoldAccountDecorator A) :=
  fun self => let 'GoldAccountDecorator_new account := self in
    account_type account +:+ " with Gold features".

#[global] Instance DiscountedAccount_account_type {A} `{Account A} :
  Account (DiscountedAccount A) :=
  fun self => let 'DiscountedAccount_new account := self in
    account_type account +:+ " with discount".

(** ** Customer *)

Record Customer : Type := Customer_new {
  name : string;
  age : Z;
  income : Z;
  education : string;
  credit_score : Z
}.

Definition check_credit (self : Customer) : bool :=
  credit_score self >? 700.

(** ** Facade: [BankingServices] *)

Module BankingServices.

Record t : Type := { account_factories : gmap string factory_object }.

(** [BankingServices.__init__] *)
Definition new : t :=
  {| account_factories :=
       {[ "Current" := Factory CurrentAccountFactory_new;
          "HomeLoan" := Factory HomeLoanAccountFactory_new;
          "CarLoan" := Factory CarLoanAccountFactory_new;
          "PersonalLoan" := Factory PersonalLoanAccountFactory_new;
          "Savings" := Factory SavingsAccountFactory_new ]} |}.

(** [self.account_factories.get(type)] is [None] for a missing key; an
    object of a factory class is always true in a condition (the classes
    define neither [__bool__] nor [__len__]), so [if factory] is the test
    for the key being present. *)
Definition create_account (self : t) (type : string) (customer : Customer)
  : string :=
  if (type =? "HomeLoan")%string && (age customer >? 50) then
    "Sorry, customers over 50 do not qualify for home loans."
  else if existsb (String.eqb type) ["CarLoan"; "PersonalLoan"]
          && (income customer <? 50000) then
    "Sorry, you need a minimum income of 50,000 for car and personal loans."
  else if (type =? "Savings")%string && (age customer <? 18) then
    "Sorry, you need to be at least 18 years old to open a savings account."
  else
    match account_factories self !! type with
    | Some factory =>
        let account := create_account (factory_self factory) in
        account_type account
    | None => "Invalid account type"
    end.

Definition upgrade_account {A} `{Account A} (self : t) (account : A)
  (level : string) : string :=
  if (level =? "Bronze")%string then
    account_type (BronzeAccountDecorator_new account)
  else if (level =? "Silver")%string then
    account_type (SilverAccountDecorator_new account)
  else if (level =? "Gold")%string then
    account_type (GoldAccountDecorator_new account)
  else "Invalid level".

Definition apply_discount {A} `{Account A} (self : t) (account : A) : string :=
  account_type (DiscountedAccount_new account).

End BankingServices.

(** ** Loan application *)

Module LoanApplication.

Record t : Type := { banking_services : BankingServices.t }.

(** [LoanApplication.__init__(self, banking_services)] *)
Definition new (banking_services : BankingServices.t) : t :=
  {| banking_services := banking_services |}.

Definition apply_for_loan (self : t) (type : string) (customer : Customer)
  : string :=
  if check_credit customer then
    BankingServices.create_account (banking_services self) type customer
  else "Sorry, your credit score is too low for a loan.".

End LoanApplication.

(** ** The objects of the demonstration cell *)

Definition banking_services : BankingServices.t := BankingServices.new.
Definition loan_application : LoanApplication.t :=
  LoanApplication.new banking_services.

Definition ola : Customer :=
  Customer_new "Ola Nordmann" 25 70000 "Bachelor's" 800.
Definition lisa : Customer :=
  Customer_new "Lisa Andersen" 55 80000 "Master's" 650.
Definition anders : Customer :=
  Customer_new "Anders Andersen" 30 50000 "Bachelor's" 750.

(** A further customer, not of the demonstration cell: under 18 and with
    an income under 50000, to reach the income and the savings rules. *)
Definition young_customer : Customer :=
  Customer_new "Kari Nordmann" 17 49999 "High school" 720.

(** * Properties *)

(** ** The printed lines of the demonstration cell *)

Example demo_ola_car_loan :
  LoanApplication.apply_for_loan loan_application "CarLoan" ola
  = "Car Loan Account Created".
Proof. vm_compute. reflexivity. Qed.

Example demo_lisa_home_loan :
  LoanApplication.apply_for_loan loan_application "HomeLoan" lisa
  = "Sorry, your credit score is too low for a loan.".
Proof. vm_compute. reflexivity. Qed.

Example demo_anders_savings :
  BankingServices.create_account banking_services "Savings" anders
  = "Savings Account Created".
Proof. vm_compute. reflexivity. Qed.

Example demo_upgrade_gold :
  BankingServices.upgrade_account banking_services SavingsAccount_new "Gold"
  = "Savings Account Created with Gold features".
Proof. vm_compute. reflexivity. Qed.

Example demo_discount :
  BankingServices.apply_discount banking_services SavingsAccount_new
  = "Savings Account Created with discount".
Proof. vm_compute. reflexivity. Qed.

Example demo_anders_home_loan :
  LoanApplication.apply_for_loan loan_application "HomeLoan" anders
  = "Home Loan Account Created".
Proof. vm_compute. reflexivity. Qed.

Example demo_lisa_current :
  BankingServices.create_account banking_services "Current" lisa
  = "Current Account Created".
Proof. vm_compute. reflexivity. Qed.

Example demo_upgrade_silver :
  BankingServices.upgrade_account banking_services CurrentAccount_new "Silver"
  = "Current Account Created with Silver features".
Proof. vm_compute. reflexivity. Qed.

(** ** The factory dict *)

(** A key outside the five of the dict literal is absent. *)
Lemma account_factories_unknown (type : string) :
  type <> "Current" -> type <> "HomeLoan" -> type <> "CarLoan" ->
  type <> "PersonalLoan" -> type <> "Savings" ->
  BankingServices.account_factories banking_services !! type = None.
Proof.
  intros HC HH HCar HP HS.
  unfold banking_services, BankingServices.new; simpl.
  rewrite !lookup_insert_ne by congruence.
  apply lookup_singleton_ne; congruence.
Qed.

(** Every string is one of the five keys or is absent from the dict. *)
Lemma type_cases (type : string) :
  type = "Current" \/ type = "HomeLoan" \/ type = "CarLoan" \/
  type = "PersonalLoan" \/ type = "Savings" \/
  (type <> "Current" /\ type <> "HomeLoan" /\ type <> "CarLoan" /\
   type <> "PersonalLoan" /\ type <> "Savings").
Proof.
  destruct (String.eqb_spec type "Current"); [tauto|].
  destruct (String.eqb_spec type "HomeLoan"); [tauto|].
  destruct (String.eqb_spec type "CarLoan"); [tauto|].
  destruct (String.eqb_spec type "PersonalLoan"); [tauto|].
  destruct (String.eqb_spec type "Savings"); tauto.
Qed.

(** ** [create_account], kind by kind *)

Section CreateAccount.

Variable customer : Customer.

Lemma create_account_Current :
  BankingServices.create_account banking_services "Current" customer
  = "Current Account Created".
Proof.
  unfold BankingServices.create_account.
  destruct (age customer >? 50), (income customer <? 50000),
    (age customer <? 18); vm_compute; reflexivity.
Qed.

Lemma create_account_HomeLoan :
  BankingServices.create_account banking_services "HomeLoan" customer
  = if age customer >? 50
    then "Sorry, customers over 50 do not qualify for home loans."
    else "Home Loan Account Created".
Proof.
  unfold BankingServices.create_account.
  destruct (age customer >? 50), (income customer <? 50000),
    (age customer <? 18); vm_compute; reflexivity.
Qed.

Lemma create_account_CarLoan :
  BankingServices.create_account banking_services "CarLoan" customer
  = if income customer <? 50000
    then "Sorry, you need a minimum income of 50,000 for car and personal loans."
    else "Car Loan Account Created".
Proof.
  unfold BankingServices.create_account.
  destruct (age customer >? 50), (income customer <? 50000),
    (age customer <? 18); vm_compute; reflexivity.
Qed.

Lemma create_account_PersonalLoan :
  BankingServices.create_account banking_services "PersonalLoan" customer
  = if income customer <? 50000
    then "Sorry, you need a minimum income of 50,000 for car and personal loans."
    else "Personal Loan Account Created".
Proof.
  unfold BankingServices.create_account.
  destruct (age customer >? 50), (income customer <? 50000),
    (age customer <? 18); vm_compute; reflexivity.
Qed.

Lemma create_account_Savings :
  BankingServices.create_account banking_services "Savings" customer
  = if age customer <? 18
    then "Sorry, you need to be at least 18 years old to open a savings account."
    else "Savings Account Created".
Proof.
  unfold BankingServices.create_account.
  destruct (age customer >? 50), (income customer <? 50000),
    (age customer <? 18); vm_compute; reflexivity.
Qed.

Lemma create_account_unknown (type : string) :
  type <> "Current" -> type <> "HomeLoan" -> type <> "CarLoan" ->
  type <> "PersonalLoan" -> type <> "Savings" ->
  BankingServices.create_account banking_services type customer
  = "Invalid account type".
Proof.
  intros HC HH HCar HP HS.
  unfold BankingServices.create_account.
  rewrite (account_factories_unknown type) by assumption.
  simpl existsb.
  apply String.eqb_neq in HH, HCar, HP, HS.
  rewrite HH, HCar, HP, HS. reflexivity.
Qed.

End CreateAccount.

(** The comparisons of the rules, as propositions. *)
Ltac by_cases_on_rules :=
  repeat match goal with
  | |- context [?a >? ?b] => destruct (Z.gtb_spec a b)
  | |- context [?a <? ?b] => destruct (Z.ltb_spec a b)
  end.

Ltac settle :=
  repeat split; intros;
  try reflexivity; try lia; try discriminate; try congruence.

(** ** The loan gate *)

(** C1: [apply_for_loan] answers with the low-credit message for every kind
    and every customer whose credit score is not strictly greater than 700;
    700 itself is rejected and 701 passes on to [create_account]. The
    credit check comes before the eligibility rules: a customer of age 55
    with credit score 650 asking for a HomeLoan gets the low-credit message,
    although [create_account] alone would answer with the over-50
    rejection. *)
Theorem apply_for_loan_credit_gate :
  (forall (self : LoanApplication.t) (kind : string) (c : Customer),
      ~ (700 < credit_score c) ->
      LoanApplication.apply_for_loan self kind c
      = "Sorry, your credit score is too low for a loan.")
  /\ (forall (self : LoanApplication.t) (kind : string) (c : Customer),
      credit_score c = 700 ->
      LoanApplication.apply_for_loan self kind c
      = "Sorry, your credit score is too low for a loan.")
  /\ (forall (self : LoanApplication.t) (kind : string) (c : Customer),
      credit_score c = 701 ->
      LoanApplication.apply_for_loan self kind c
      = BankingServices.create_account
          (LoanApplication.banking_services self) kind c)
  /\ (forall (self : LoanApplication.t) (c : Customer),
      age c = 55 -> credit_score c = 650 ->
      LoanApplication.apply_for_loan self "HomeLoan" c
      = "Sorry, your credit score is too low for a loan."
      /\ BankingServices.create_account
           (LoanApplication.banking_services self) "HomeLoan" c
         = "Sorry, customers over 50 do not qualify for home loans.").
Proof.
  unfold LoanApplication.apply_for_loan, check_credit.
  repeat split; intros.
  - by_cases_on_rules; settle.
  - by_cases_on_rules; settle.
  - by_cases_on_rules; settle.
  - by_cases_on_rules; settle.
  - unfold BankingServices.create_account. rewrite String.eqb_refl.
    by_cases_on_rules; settle.
Qed.

Lemma apply_for_loan_credit_gate_witness :
  ~ (700 < credit_score lisa)
  /\ LoanApplication.apply_for_loan loan_application "HomeLoan" lisa
     = "Sorry, your credit score is too low for a loan.".
Proof.
  split.
  - vm_compute. discriminate.
  - apply (proj1 apply_for_loan_credit_gate).
    vm_compute. discriminate.
Defined.

(** C2: for every kind and every customer with a credit score strictly
    greater than 700, [apply_for_loan] returns exactly what
    [create_account] returns for the same kind and customer, a success
    label or a rejection alike. *)
Theorem apply_for_loan_delegates
  (self : LoanApplication.t) (kind : string) (c : Customer) :
  700 < credit_score c ->
  LoanApplication.apply_for_loan self kind c
  = BankingServices.create_account
      (LoanApplication.banking_services self) kind c.
Proof.
  intros Hscore. unfold LoanApplication.apply_for_loan, check_credit.
  by_cases_on_rules; settle.
Qed.

Lemma apply_for_loan_delegates_witness :
  700 < credit_score ola
  /\ LoanApplication.apply_for_loan loan_application "CarLoan" ola
     = BankingServices.create_account
         (LoanApplication.banking_services loan_application) "CarLoan" ola.
Proof.
  split.
  - vm_compute. reflexivity.
  - apply (apply_for_loan_delegates loan_application "CarLoan" ola).
    vm_compute. reflexivity.
Defined.

(** ** The eligibility rules of [create_account] *)

(** C3: a HomeLoan request is rejected exactly when the customer's age is
    strictly greater than 50, whatever the other fields of the customer:
    age 51 is rejected, age 50 gets "Home Loan Account Created". *)
Theorem create_account_HomeLoan_age (c : Customer) :
  (BankingServices.create_account banking_services "HomeLoan" c
   = "Sorry, customers over 50 do not qualify for home loans."
   <-> 50 < age c)
  /\ (BankingServices.create_account banking_services "HomeLoan" c
      = "Home Loan Account Created"
      <-> age c <= 50)
  /\ (age c = 51 ->
      BankingServices.create_account banking_services "HomeLoan" c
      = "Sorry, customers over 50 do not qualify for home loans.")
  /\ (age c = 50 ->
      BankingServices.create_account banking_services "HomeLoan" c
      = "Home Loan Account Created").
Proof.
  rewrite create_account_HomeLoan. by_cases_on_rules; settle.
Qed.

Lemma create_account_HomeLoan_age_witness :
  50 < age lisa
  /\ BankingServices.create_account banking_services "HomeLoan" lisa
     = "Sorry, customers over 50 do not qualify for home loans.".
Proof.
  split.
  - vm_compute. reflexivity.
  - apply (proj1 (create_account_HomeLoan_age lisa)).
    vm_compute. reflexivity.
Defined.

(** C4: a CarLoan or PersonalLoan request is rejected exactly when the
    customer's income is strictly less than 50000: 49999 is rejected, 50000
    gets the label of the kind. No other kind is ever answered with the
    income rejection, and for the other kinds the answer does not change
    with the income. *)
Theorem create_account_loan_income :
  (forall (kind : string) (c : Customer),
      kind = "CarLoan" \/ kind = "PersonalLoan" ->
      (BankingServices.create_account banking_services kind c
       = "Sorry, you need a minimum income of 50,000 for car and personal loans."
       <-> income c < 50000))
  /\ (forall c : Customer,
      50000 <= income c ->
      BankingServices.create_account banking_services "CarLoan" c
      = "Car Loan Account Created"
      /\ BankingServices.create_account banking_services "PersonalLoan" c
         = "Personal Loan Account Created")
  /\ (forall c : Customer,
      income c = 49999 ->
      BankingServices.create_account banking_services "CarLoan" c
      = "Sorry, you need a minimum income of 50,000 for car and personal loans."
      /\ BankingServices.create_account banking_services "PersonalLoan" c
         = "Sorry, you need a minimum income of 50,000 for car and personal loans.")
  /\ (forall c : Customer,
      income c = 50000 ->
      BankingServices.create_account banking_services "CarLoan" c
      = "Car Loan Account Created"
      /\ BankingServices.create_account banking_services "PersonalLoan" c
         = "Personal Loan Account Created")
  /\ (forall (kind : string) (c : Customer),
      kind <> "CarLoan" -> kind <> "PersonalLoan" ->
      BankingServices.create_account banking_services kind c
      <> "Sorry, you need a minimum income of 50,000 for car and personal loans.")
  /\ (forall (kind : string) (c c' : Customer),
      kind <> "CarLoan" -> kind <> "PersonalLoan" ->
      age c = age c' ->
      BankingServices.create_account banking_services kind c
      = BankingServices.create_account banking_services kind c').
Proof.
  split; [|split; [|split; [|split; [|split]]]].
  - intros kind c [-> | ->].
    + rewrite create_account_CarLoan. by_cases_on_rules; settle.
    + rewrite create_account_PersonalLoan. by_cases_on_rules; settle.
  - intros c Hc.
    rewrite create_account_CarLoan, create_account_PersonalLoan.
    by_cases_on_rules; settle.
  - intros c Hc.
    rewrite create_account_CarLoan, create_account_PersonalLoan.
    by_cases_on_rules; settle.
  - intros c Hc.
    rewrite create_account_CarLoan, create_account_PersonalLoan.
    by_cases_on_rules; settle.
  - intros kind c HCar HP.
    destruct (type_cases kind)
      as [-> | [-> | [-> | [-> | [-> | (HC & HH & _ & _ & HS)]]]]];
      try congruence.
    + rewrite create_account_Current. discriminate.
    + rewrite create_account_HomeLoan. by_cases_on_rules; discriminate.
    + rewrite create_account_Savings. by_cases_on_rules; discriminate.
    + rewrite create_account_unknown by assumption. discriminate.
  - intros kind c c' HCar HP Hage.
    unfold BankingServices.create_account. simpl existsb.
    apply String.eqb_neq in HCar, HP. rewrite HCar, HP, Hage. reflexivity.
Qed.

Lemma create_account_loan_income_witness :
  ("CarLoan" = "CarLoan" \/ "CarLoan" = "PersonalLoan")
  /\ 50000 <= income ola
  /\ BankingServices.create_account banking_services "CarLoan" ola
     = "Car Loan Account Created"
  /\ ~ (income ola < 50000).
Proof.
  split; [left; reflexivity|].
  split; [vm_compute; discriminate|].
  split.
  - apply (proj1 (proj2 create_account_loan_income) ola).
    vm_compute. discriminate.
  - intros Hlow.
    apply (proj1 create_account_loan_income "CarLoan" ola
             (or_introl eq_refl)) in Hlow.
    vm_compute in Hlow. discriminate Hlow.
Defined.

(** C5: a Savings request is rejected exactly when the customer's age is
    strictly less than 18: age 17 is rejected, age 18 gets
    "Savings Account Created". *)
Theorem create_account_Savings_age (c : Customer) :
  (BankingServices.create_account banking_services "Savings" c
   = "Sorry, you need to be at least 18 years old to open a savings account."
   <-> age c < 18)
  /\ (BankingServices.create_account banking_services "Savings" c
      = "Savings Account Created"
      <-> 18 <= age c)
  /\ (age c = 17 ->
      BankingServices.create_account banking_services "Savings" c
      = "Sorry, you need to be at least 18 years old to open a savings account.")
  /\ (age c = 18 ->
      BankingServices.create_account banking_services "Savings" c
      = "Savings Account Created").
Proof.
  rewrite create_account_Savings. by_cases_on_rules; settle.
Qed.

Lemma create_account_Savings_age_witness :
  18 <= age anders
  /\ BankingServices.create_account banking_services "Savings" anders
     = "Savings Account Created".
Proof.
  split.
  - vm_compute. discriminate.
  - apply (proj1 (proj2 (create_account_Savings_age anders))).
    vm_compute. discriminate.
Defined.

(** C6: for every kind string other than the five known ones,
    [create_account] answers "Invalid account type", whatever the
    customer. *)
Theorem create_account_invalid_type (kind : string) (c : Customer) :
  kind <> "Current" -> kind <> "HomeLoan" -> kind <> "CarLoan" ->
  kind <> "PersonalLoan" -> kind <> "Savings" ->
  BankingServices.create_account banking_services kind c
  = "Invalid account type".
Proof.
  intros. apply create_account_unknown; assumption.
Qed.

Lemma create_account_invalid_type_witness :
  BankingServices.create_account banking_services "Bogus" lisa
  = "Invalid account type".
Proof.
  apply (create_account_invalid_type "Bogus" lisa); discriminate.
Defined.

(** ** The texts of the rejections *)

(** C7, as stated, fails: the three rules fire for these customers, and the
    answers are not the short texts "customers over 50 do not qualify for
    home loans.", "minimum income of 50,000 required." and "must be at
    least 18 years old to open a savings account.". *)
Lemma rejection_texts_are_not_the_short_ones :
  (50 < age lisa
   /\ BankingServices.create_account banking_services "HomeLoan" lisa
      <> "customers over 50 do not qualify for home loans.")
  /\ (income young_customer < 50000
      /\ BankingServices.create_account banking_services "CarLoan"
           young_customer
         <> "minimum income of 50,000 required."
      /\ BankingServices.create_account banking_services "PersonalLoan"
           young_customer
         <> "minimum income of 50,000 required.")
  /\ (age young_customer < 18
      /\ BankingServices.create_account banking_services "Savings"
           young_customer
         <> "must be at least 18 years old to open a savings account.").
Proof.
  repeat split; vm_compute; discriminate.
Qed.

(** C7, amended: when [create_account] rejects for an eligibility rule,
    the text is exactly the one of the source: "Sorry, customers over 50 do
    not qualify for home loans." for the home-loan age rule, "Sorry, you
    need a minimum income of 50,000 for car and personal loans." for the
    income rule, and "Sorry, you need to be at least 18 years old to open a
    savings account." for the savings age rule. *)
Theorem create_account_rejection_texts
  (self : BankingServices.t) (kind : string) (c : Customer) :
  (kind = "HomeLoan" -> 50 < age c ->
   BankingServices.create_account self kind c
   = "Sorry, customers over 50 do not qualify for home loans.")
  /\ (kind = "CarLoan" \/ kind = "PersonalLoan" -> income c < 50000 ->
      BankingServices.create_account self kind c
      = "Sorry, you need a minimum income of 50,000 for car and personal loans.")
  /\ (kind = "Savings" -> age c < 18 ->
      BankingServices.create_account self kind c
      = "Sorry, you need to be at least 18 years old to open a savings account.").
Proof.
  unfold BankingServices.create_account.
  split; [|split].
  - intros -> Hage. rewrite String.eqb_refl.
    by_cases_on_rules; settle.
  - intros [-> | ->] Hincome; simpl; by_cases_on_rules; settle.
  - intros -> Hage. simpl. by_cases_on_rules; settle.
Qed.

Lemma create_account_rejection_texts_witness :
  (50 < age lisa
   /\ BankingServices.create_account banking_services "HomeLoan" lisa
      = "Sorry, customers over 50 do not qualify for home loans.")
  /\ (income young_customer < 50000
      /\ BankingServices.create_account banking_services "PersonalLoan"
           young_customer
         = "Sorry, you need a minimum income of 50,000 for car and personal loans.")
  /\ (age young_customer < 18
      /\ BankingServices.create_account banking_services "Savings"
           young_customer
         = "Sorry, you need to be at least 18 years old to open a savings account.").
Proof.
  split; [|split]; (split; [vm_compute; reflexivity|]).
  - apply (proj1 (create_account_rejection_texts
                    banking_services "HomeLoan" lisa));
      [reflexivity | vm_compute; reflexivity].
  - apply (proj1 (proj2 (create_account_rejection_texts
                           banking_services "PersonalLoan" young_customer)));
      [right; reflexivity | vm_compute; reflexivity].
  - apply (proj2 (proj2 (create_account_rejection_texts
                           banking_services "Savings" young_customer)));
      [reflexivity | vm_compute; reflexivity].
Defined.

(** ** Decorators *)

(** Python's [+] on strings is associative. *)
Lemma append_assoc (s1 s2 s3 : string) :
  (s1 +:+ s2) +:+ s3 = s1 +:+ (s2 +:+ s3).
Proof.
  induction s1 as [|ch s1 IH].
  - reflexivity.
  - change (String ch ((s1 +:+ s2) +:+ s3) = String ch (s1 +:+ (s2 +:+ s3))).
    rewrite IH. reflexivity.
Qed.

(** C8: each decorator appends its own suffix to the description of the
    account it wraps, and wrapping twice concatenates the suffixes in the
    order of wrapping: a Bronze account wrapped in a discount is described
    by the base description, then " with Bronze features", then
    " with discount". *)
Theorem decorators_append (A : Type) (Acc : Account A) (a : A) :
  account_type (BronzeAccountDecorator_new a)
  = account_type a +:+ " with Bronze features"
  /\ account_type (SilverAccountDecorator_new a)
     = account_type a +:+ " with Silver features"
  /\ account_type (GoldAccountDecorator_new a)
     = account_type a +:+ " with Gold features"
  /\ account_type (DiscountedAccount_new a)
     = account_type a +:+ " with discount"
  /\ account_type (DiscountedAccount_new (BronzeAccountDecorator_new a))
     = (account_type a +:+ " with Bronze features") +:+ " with discount"
  /\ account_type (DiscountedAccount_new (BronzeAccountDecorator_new a))
     = account_type a +:+ (" with Bronze features" +:+ " with discount")
  /\ account_type (BronzeAccountDecorator_new (DiscountedAccount_new a))
     = (account_type a +:+ " with discount") +:+ " with Bronze features".
Proof.
  repeat split.
  change (account_type (DiscountedAccount_new (BronzeAccountDecorator_new a)))
    with ((account_type a +:+ " with Bronze features") +:+ " with discount").
  apply append_assoc.
Qed.

(** C9: [upgrade_account] with level "Bronze", "Silver" or "Gold" returns
    the description of the account with the suffix of the tier appended,
    and "Invalid level" for every other level; [apply_discount] returns the
    description with " with discount" appended, for every account. *)
Theorem upgrade_and_discount
  (A : Type) (Acc : Account A) (self : BankingServices.t) (a : A) :
  BankingServices.upgrade_account self a "Bronze"
  = account_type a +:+ " with Bronze features"
  /\ BankingServices.upgrade_account self a "Silver"
     = account_type a +:+ " with Silver features"
  /\ BankingServices.upgrade_account self a "Gold"
     = account_type a +:+ " with Gold features"
  /\ (forall level : string,
      level <> "Bronze" -> level <> "Silver" -> level <> "Gold" ->
      BankingServices.upgrade_account self a level = "Invalid level")
  /\ BankingServices.apply_discount self a
     = account_type a +:+ " with discount".
Proof.
  repeat split.
  intros level HB HS HG. unfold BankingServices.upgrade_account.
  apply String.eqb_neq in HB, HS, HG. rewrite HB, HS, HG. reflexivity.
Qed.

Lemma upgrade_and_discount_witness :
  BankingServices.upgrade_account banking_services SavingsAccount_new "Platinum"
  = "Invalid level".
Proof.
  apply (proj1 (proj2 (proj2 (proj2
           (upgrade_and_discount SavingsAccount _ banking_services
              SavingsAccount_new))))); discriminate.
Defined.

(** ** What the answers depend on *)

(** C10: the answer of [create_account] depends only on the kind and on the
    customer's age and income; [check_credit] depends only on the credit
    score; so the answer of [apply_for_loan] depends only on the kind, the
    age, the income and the credit score. Name and education never
    matter. *)
Theorem answers_depend_only_on_age_income_credit :
  (forall (self : BankingServices.t) (kind : string) (c1 c2 : Customer),
      age c1 = age c2 -> income c1 = income c2 ->
      BankingServices.create_account self kind c1
      = BankingServices.create_account self kind c2)
  /\ (forall c1 c2 : Customer,
      credit_score c1 = credit_score c2 ->
      check_credit c1 = check_credit c2)
  /\ (forall (self : LoanApplication.t) (kind : string) (c1 c2 : Customer),
      age c1 = age c2 -> income c1 = income c2 ->
      credit_score c1 = credit_score c2 ->
      LoanApplication.apply_for_loan self kind c1
      = LoanApplication.apply_for_loan self kind c2).
Proof.
  unfold LoanApplication.apply_for_loan, BankingServices.create_account,
    check_credit.
  split; [|split].
  - intros self kind c1 c2 Hage Hincome.
    rewrite Hage, Hincome. reflexivity.
  - intros c1 c2 Hscore. rewrite Hscore. reflexivity.
  - intros self kind c1 c2 Hage Hincome Hscore.
    rewrite Hage, Hincome, Hscore. reflexivity.
Qed.

Lemma answers_depend_only_on_age_income_credit_witness :
  LoanApplication.apply_for_loan loan_application "HomeLoan" lisa
  = LoanApplication.apply_for_loan loan_application "HomeLoan"
      (Customer_new "Ola Nordmann" 55 80000 "Bachelor's" 650).
Proof.
  apply (proj2 (proj2 answers_depend_only_on_age_income_credit));
    reflexivity.
Defined.

(** * Further properties of the code *)

(** ** Strings: length, prefix and cancellation of [+] *)

Lemma append_cons (ch : Ascii.ascii) (s t : string) :
  String ch s +:+ t = String ch (s +:+ t).
Proof. reflexivity. Qed.

Lemma length_append (s t : string) :
  String.length (s +:+ t) = (String.length s + String.length t)%nat.
Proof.
  induction s as [|ch s IH]; [reflexivity|].
  rewrite append_cons. simpl. rewrite IH. reflexivity.
Qed.

Lemma prefix_append (s t : string) : String.prefix s (s +:+ t) = true.
Proof.
  induction s as [|ch s IH].
  - destruct t; reflexivity.
  - rewrite append_cons. simpl.
    destruct (Ascii.ascii_dec ch ch); [exact IH | congruence].
Qed.

Lemma append_cancel_l (s t1 t2 : string) : s +:+ t1 = s +:+ t2 -> t1 = t2.
Proof.
  induction s as [|ch s IH]; intros Heq; [exact Heq|].
  rewrite !append_cons in Heq. injection Heq as Heq. exact (IH Heq).
Qed.

Lemma append_cancel_r (s1 s2 t : string) : s1 +:+ t = s2 +:+ t -> s1 = s2.
Proof.
  revert s2. induction s1 as [|ch1 s1 IH]; intros [|ch2 s2] Heq.
  - reflexivity.
  - apply (f_equal String.length) in Heq.
    rewrite !length_append in Heq. simpl in Heq. lia.
  - apply (f_equal String.length) in Heq.
    rewrite !length_append in Heq. simpl in Heq. lia.
  - rewrite !append_cons in Heq. injection Heq as Hch Heq.
    rewrite Hch, (IH s2 Heq). reflexivity.
Qed.

(** ** Every way through [create_account] *)

Ltac finish_case := repeat split; solve [reflexivity | lia | assumption].
Ltac pick_case := first [solve [finish_case] | left; solve [finish_case] | right; pick_case].

(** The ten paths of [create_account] on the services of the
    demonstration cell: which kind, which comparison, which answer. *)
Lemma create_account_cases (type : string) (c : Customer) :
  (type = "Current"
   /\ BankingServices.create_account banking_services type c
      = "Current Account Created")
  \/ (type = "HomeLoan" /\ 50 < age c
      /\ BankingServices.create_account banking_services type c
         = "Sorry, customers over 50 do not qualify for home loans.")
  \/ (type = "HomeLoan" /\ age c <= 50
      /\ BankingServices.create_account banking_services type c
         = "Home Loan Account Created")
  \/ (type = "CarLoan" /\ income c < 50000
      /\ BankingServices.create_account banking_services type c
         = "Sorry, you need a minimum income of 50,000 for car and personal loans.")
  \/ (type = "CarLoan" /\ 50000 <= income c
      /\ BankingServices.create_account banking_services type c
         = "Car Loan Account Created")
  \/ (type = "PersonalLoan" /\ income c < 50000
      /\ BankingServices.create_account banking_services type c
         = "Sorry, you need a minimum income of 50,000 for car and personal loans.")
  \/ (type = "PersonalLoan" /\ 50000 <= income c
      /\ BankingServices.create_account banking_services type c
         = "Personal Loan Account Created")
  \/ (type = "Savings" /\ age c < 18
      /\ BankingServices.create_account banking_services type c
         = "Sorry, you need to be at least 18 years old to open a savings account.")
  \/ (type = "Savings" /\ 18 <= age c
      /\ BankingServices.create_account banking_services type c
         = "Savings Account Created")
  \/ ((type <> "Current" /\ type <> "HomeLoan" /\ type <> "CarLoan"
       /\ type <> "PersonalLoan" /\ type <> "Savings")
      /\ BankingServices.create_account banking_services type c
         = "Invalid account type").
Proof.
  destruct (type_cases type)
    as [-> | [-> | [-> | [-> | [-> | (HC & HH & HCar & HP & HS)]]]]].
  - rewrite create_account_Current. pick_case.
  - rewrite create_account_HomeLoan. by_cases_on_rules; pick_case.
  - rewrite create_account_CarLoan. by_cases_on_rules; pick_case.
  - rewrite create_account_PersonalLoan. by_cases_on_rules; pick_case.
  - rewrite create_account_Savings. by_cases_on_rules; pick_case.
  - rewrite create_account_unknown by assumption. pick_case.
Qed.

(** Splits the goal along the ten paths and settles each one. *)
Ltac along_the_paths type c :=
  let Hr := fresh "Hr" in
  destruct (create_account_cases type c)
    as [(-> & Hr) | [(-> & ? & Hr) | [(-> & ? & Hr) | [(-> & ? & Hr)
       | [(-> & ? & Hr) | [(-> & ? & Hr) | [(-> & ? & Hr) | [(-> & ? & Hr)
       | [(-> & ? & Hr) | ((? & ? & ? & ? & ?) & Hr)]]]]]]]]];
  rewrite Hr; clear Hr.

Ltac open_hyps :=
  repeat match goal with
  | H : _ /\ _ |- _ => destruct H
  | H : _ \/ _ |- _ => destruct H
  | H : In _ _ |- _ => simpl in H
  | H : False |- _ => destruct H
  end.

Ltac close_path :=
  repeat split; intros; open_hyps;
  try reflexivity; try lia; try discriminate; try congruence.

Ltac pick_member := simpl; first [left; reflexivity | right; pick_member].

(** ** What [create_account] and [apply_for_loan] can answer *)

(** X1: whatever the kind string and the customer, [create_account] answers
    with one of nine texts (five labels, three rejections, "Invalid account
    type"), and [apply_for_loan] with one of these or the low-credit
    text. *)
Theorem create_account_answers (type : string) (c : Customer) :
  In (BankingServices.create_account banking_services type c)
     [ "Current Account Created"; "Home Loan Account Created";
       "Car Loan Account Created"; "Personal Loan Account Created";
       "Savings Account Created";
       "Sorry, customers over 50 do not qualify for home loans.";
       "Sorry, you need a minimum income of 50,000 for car and personal loans.";
       "Sorry, you need to be at least 18 years old to open a savings account.";
       "Invalid account type" ]
  /\ In (LoanApplication.apply_for_loan loan_application type c)
        [ "Sorry, your credit score is too low for a loan.";
          "Current Account Created"; "Home Loan Account Created";
          "Car Loan Account Created"; "Personal Loan Account Created";
          "Savings Account Created";
          "Sorry, customers over 50 do not qualify for home loans.";
          "Sorry, you need a minimum income of 50,000 for car and personal loans.";
          "Sorry, you need to be at least 18 years old to open a savings account.";
          "Invalid account type" ].
Proof.
  split.
  - along_the_paths type c; pick_member.
  - unfold LoanApplication.apply_for_loan.
    change (LoanApplication.banking_services loan_application)
      with banking_services.
    destruct (check_credit c); [|pick_member].
    along_the_paths type c; pick_member.
Qed.

(** X2: an account label is answered only to an eligible request of that
    very kind, and to every such request: the Current label for kind
    "Current" and any customer, the Home Loan label for "HomeLoan" and age
    at most 50, the Car and Personal Loan labels for their kind and an
    income of at least 50000, the Savings label for "Savings" and age at
    least 18. *)
Theorem create_account_label_iff (type : string) (c : Customer) :
  (BankingServices.create_account banking_services type c
   = "Current Account Created"
   <-> type = "Current")
  /\ (BankingServices.create_account banking_services type c
      = "Home Loan Account Created"
      <-> type = "HomeLoan" /\ age c <= 50)
  /\ (BankingServices.create_account banking_services type c
      = "Car Loan Account Created"
      <-> type = "CarLoan" /\ 50000 <= income c)
  /\ (BankingServices.create_account banking_services type c
      = "Personal Loan Account Created"
      <-> type = "PersonalLoan" /\ 50000 <= income c)
  /\ (BankingServices.create_account banking_services type c
      = "Savings Account Created"
      <-> type = "Savings" /\ 18 <= age c).
Proof.
  along_the_paths type c; close_path.
Qed.

Lemma create_account_label_iff_witness :
  BankingServices.create_account banking_services "Current" lisa
  = "Current Account Created".
Proof.
  apply (proj1 (create_account_label_iff "Current" lisa)). reflexivity.
Defined.

(** X3: each rejection text is answered only when its own rule fires, and
    "Invalid account type" only for a kind string that is none of the five
    keys: the texts tell the reasons apart. *)
Theorem create_account_rejection_iff (type : string) (c : Customer) :
  (BankingServices.create_account banking_services type c
   = "Sorry, customers over 50 do not qualify for home loans."
   <-> type = "HomeLoan" /\ 50 < age c)
  /\ (BankingServices.create_account banking_services type c
      = "Sorry, you need a minimum income of 50,000 for car and personal loans."
      <-> (type = "CarLoan" \/ type = "PersonalLoan") /\ income c < 50000)
  /\ (BankingServices.create_account banking_services type c
      = "Sorry, you need to be at least 18 years old to open a savings account."
      <-> type = "Savings" /\ age c < 18)
  /\ (BankingServices.create_account banking_services type c
      = "Invalid account type"
      <-> type <> "Current" /\ type <> "HomeLoan" /\ type <> "CarLoan"
          /\ type <> "PersonalLoan" /\ type <> "Savings").
Proof.
  along_the_paths type c; close_path; try (left; reflexivity);
    try (right; reflexivity).
Qed.

Lemma create_account_rejection_iff_witness :
  BankingServices.create_account banking_services "PersonalLoan" young_customer
  = "Sorry, you need a minimum income of 50,000 for car and personal loans.".
Proof.
  apply (proj1 (proj2
           (create_account_rejection_iff "PersonalLoan" young_customer))).
  split; [right; reflexivity | vm_compute; reflexivity].
Defined.

(** X4: [apply_for_loan] answers with the low-credit text only when the
    credit score is at most 700 (no answer of [create_account] has that
    text), and it answers with an account label only to a customer whose
    credit score is above 700. *)
Theorem apply_for_loan_answers (type : string) (c : Customer) :
  (LoanApplication.apply_for_loan loan_application type c
   = "Sorry, your credit score is too low for a loan."
   <-> credit_score c <= 700)
  /\ (In (LoanApplication.apply_for_loan loan_application type c)
         [ "Current Account Created"; "Home Loan Account Created";
           "Car Loan Account Created"; "Personal Loan Account Created";
           "Savings Account Created" ]
      -> 700 < credit_score c).
Proof.
  unfold LoanApplication.apply_for_loan, check_credit.
  change (LoanApplication.banking_services loan_application)
    with banking_services.
  destruct (Z.gtb_spec (credit_score c) 700); cbv beta iota.
  - along_the_paths type c; close_path.
  - close_path.
Qed.

Lemma apply_for_loan_answers_witness :
  In (LoanApplication.apply_for_loan loan_application "HomeLoan" anders)
     [ "Current Account Created"; "Home Loan Account Created";
       "Car Loan Account Created"; "Personal Loan Account Created";
       "Savings Account Created" ]
  /\ 700 < credit_score anders.
Proof.
  assert (Hlabel :
    In (LoanApplication.apply_for_loan loan_application "HomeLoan" anders)
       [ "Current Account Created"; "Home Loan Account Created";
         "Car Loan Account Created"; "Personal Loan Account Created";
         "Savings Account Created" ]).
  { right. left. vm_compute. reflexivity. }
  split; [exact Hlabel|].
  exact (proj2 (apply_for_loan_answers "HomeLoan" anders) Hlabel).
Defined.

(** ** The factory dict *)

(** X5: the dict of [BankingServices.__init__] has exactly the five keys
    "Current", "HomeLoan", "CarLoan", "PersonalLoan" and "Savings", and the
    factory stored under a key creates the account whose description names
    that kind. *)
Theorem account_factories_keys :
  (forall type : string,
      BankingServices.account_factories banking_services !! type = None
      <-> type <> "Current" /\ type <> "HomeLoan" /\ type <> "CarLoan"
          /\ type <> "PersonalLoan" /\ type <> "Savings")
  /\ (forall (type : string) (factory : factory_object),
      BankingServices.account_factories banking_services !! type
      = Some factory ->
      In (type, account_type (create_account (factory_self factory)))
         [ ("Current", "Current Account Created");
           ("HomeLoan", "Home Loan Account Created");
           ("CarLoan", "Car Loan Account Created");
           ("PersonalLoan", "Personal Loan Account Created");
           ("Savings", "Savings Account Created") ]).
Proof.
  split.
  - intros type. split.
    + intros Hnone.
      repeat split; intros ->; vm_compute in Hnone; discriminate Hnone.
    + intros (HC & HH & HCar & HP & HS).
      apply account_factories_unknown; assumption.
  - intros type factory Hsome.
    destruct (type_cases type)
      as [-> | [-> | [-> | [-> | [-> | (HC & HH & HCar & HP & HS)]]]]].
    1-5: vm_compute in Hsome; injection Hsome as <-; pick_member.
    rewrite account_factories_unknown in Hsome by assumption.
    discriminate Hsome.
Qed.

Lemma account_factories_keys_witness :
  BankingServices.account_factories banking_services !! "Bogus" = None.
Proof.
  apply (proj1 account_factories_keys "Bogus").
  repeat split; discriminate.
Defined.

(** ** Decorated descriptions *)

Section Decorated.

Context {A : Type} `{Account A}.

Lemma account_type_Bronze (a : A) :
  account_type (BronzeAccountDecorator_new a)
  = account_type a +:+ " with Bronze features".
Proof. reflexivity. Qed.

Lemma account_type_Silver (a : A) :
  account_type (SilverAccountDecorator_new a)
  = account_type a +:+ " with Silver features".
Proof. reflexivity. Qed.

Lemma account_type_Gold (a : A) :
  account_type (GoldAccountDecorator_new a)
  = account_type a +:+ " with Gold features".
Proof. reflexivity. Qed.

Lemma account_type_Discounted (a : A) :
  account_type (DiscountedAccount_new a)
  = account_type a +:+ " with discount".
Proof. reflexivity. Qed.

Lemma account_type_plain (a : A) :
  account_type (AccountDecorator_new a) = account_type a.
Proof. reflexivity. Qed.

End Decorated.

Ltac to_suffixes :=
  repeat first
    [ rewrite account_type_plain | rewrite account_type_Bronze
    | rewrite account_type_Silver | rewrite account_type_Gold
    | rewrite account_type_Discounted ].

(** X6: the description of a decorated account starts with the description
    of the wrapped account and is longer by the length of the decorator's
    suffix: 21 characters for Bronze and Silver, 19 for Gold, 14 for the
    discount. The base [AccountDecorator] adds nothing, also underneath
    another decorator. *)
Theorem decorated_description_extends (A : Type) (Acc : Account A) (a : A) :
  (String.prefix (account_type a)
     (account_type (BronzeAccountDecorator_new a)) = true
   /\ String.length (account_type (BronzeAccountDecorator_new a))
      = (String.length (account_type a) + 21)%nat)
  /\ (String.prefix (account_type a)
        (account_type (SilverAccountDecorator_new a)) = true
      /\ String.length (account_type (SilverAccountDecorator_new a))
         = (String.length (account_type a) + 21)%nat)
  /\ (String.prefix (account_type a)
        (account_type (GoldAccountDecorator_new a)) = true
      /\ String.length (account_type (GoldAccountDecorator_new a))
         = (String.length (account_type a) + 19)%nat)
  /\ (String.prefix (account_type a)
        (account_type (DiscountedAccount_new a)) = true
      /\ String.length (account_type (DiscountedAccount_new a))
         = (String.length (account_type a) + 14)%nat)
  /\ account_type (AccountDecorator_new a) = account_type a
  /\ account_type (GoldAccountDecorator_new (AccountDecorator_new a))
     = account_type (GoldAccountDecorator_new a).
Proof.
  to_suffixes.
  repeat split; try apply prefix_append; rewrite length_append; reflexivity.
Qed.

(** X7: a decorator keeps different descriptions different: when two
    accounts, of any classes, have the same description after the same
    decoration, their descriptions were the same before. *)
Theorem decorated_description_injective
  (A B : Type) (AccA : Account A) (AccB : Account B) (a : A) (b : B) :
  (account_type (BronzeAccountDecorator_new a)
   = account_type (BronzeAccountDecorator_new b)
   -> account_type a = account_type b)
  /\ (account_type (SilverAccountDecorator_new a)
      = account_type (SilverAccountDecorator_new b)
      -> account_type a = account_type b)
  /\ (account_type (GoldAccountDecorator_new a)
      = account_type (GoldAccountDecorator_new b)
      -> account_type a = account_type b)
  /\ (account_type (DiscountedAccount_new a)
      = account_type (DiscountedAccount_new b)
      -> account_type a = account_type b).
Proof.
  to_suffixes. repeat split; apply append_cancel_r.
Qed.

Lemma decorated_description_injective_witness :
  account_type (GoldAccountDecorator_new SavingsAccount_new)
  = account_type
      (GoldAccountDecorator_new (AccountDecorator_new SavingsAccount_new))
  /\ account_type SavingsAccount_new
     = account_type (AccountDecorator_new SavingsAccount_new).
Proof.
  split; [reflexivity|].
  apply (proj1 (proj2 (proj2
           (decorated_description_injective _ _ _ _ SavingsAccount_new
              (AccountDecorator_new SavingsAccount_new))))).
  reflexivity.
Defined.

(** X8: the order of wrapping shows in the description: for every account,
    a tier wrapped in a discount and a discount wrapped in the same tier
    are described differently. *)
Theorem decoration_order_matters (A : Type) (Acc : Account A) (a : A) :
  account_type (DiscountedAccount_new (BronzeAccountDecorator_new a))
  <> account_type (BronzeAccountDecorator_new (DiscountedAccount_new a))
  /\ account_type (DiscountedAccount_new (SilverAccountDecorator_new a))
     <> account_type (SilverAccountDecorator_new (DiscountedAccount_new a))
  /\ account_type (DiscountedAccount_new (GoldAccountDecorator_new a))
     <> account_type (GoldAccountDecorator_new (DiscountedAccount_new a)).
Proof.
  to_suffixes. rewrite !append_assoc.
  repeat split; intros Heq; apply append_cancel_l in Heq;
    vm_compute in Heq; discriminate Heq.
Qed.

(** ** Upgrades through the facade *)

(** X9: [upgrade_account] answers "Invalid level" exactly when the level is
    none of "Bronze", "Silver" and "Gold", whatever the description of the
    account: a decorated description is never the text "Invalid level". *)
Theorem upgrade_account_invalid_iff
  (A : Type) (Acc : Account A) (self : BankingServices.t) (a : A)
  (level : string) :
  BankingServices.upgrade_account self a level = "Invalid level"
  <-> level <> "Bronze" /\ level <> "Silver" /\ level <> "Gold".
Proof.
  unfold BankingServices.upgrade_account.
  destruct (String.eqb_spec level "Bronze") as [-> | HB];
    [|destruct (String.eqb_spec level "Silver") as [-> | HS];
      [|destruct (String.eqb_spec level "Gold") as [-> | HG]]];
    to_suffixes.
  4: { split; [intros _; repeat split; assumption | reflexivity]. }
  all: split; [intros Heq | intros (HB' & HS' & HG'); congruence].
  all: apply (f_equal String.length) in Heq;
    rewrite length_append in Heq; simpl in Heq; lia.
Qed.

Lemma upgrade_account_invalid_iff_witness :
  BankingServices.upgrade_account banking_services CurrentAccount_new "gold"
  = "Invalid level".
Proof.
  apply (proj2 (upgrade_account_invalid_iff _ _ banking_services
                  CurrentAccount_new "gold")).
  repeat split; discriminate.
Defined.

(** X10: for every account, the three tiers give three different
    descriptions, all different from the undecorated description and from
    the discounted one: the answer of [upgrade_account] for a valid level
    tells the level. *)
Theorem upgrade_account_tells_level
  (A : Type) (Acc : Account A) (self : BankingServices.t) (a : A) :
  (forall level1 level2 : string,
      In level1 ["Bronze"; "Silver"; "Gold"] ->
      In level2 ["Bronze"; "Silver"; "Gold"] ->
      BankingServices.upgrade_account self a level1
      = BankingServices.upgrade_account self a level2 ->
      level1 = level2)
  /\ (forall level : string,
      In level ["Bronze"; "Silver"; "Gold"] ->
      BankingServices.upgrade_account self a level <> account_type a
      /\ BankingServices.upgrade_account self a level
         <> BankingServices.apply_discount self a).
Proof.
  split.
  - intros level1 level2 H1 H2 Heq. open_hyps; subst; try reflexivity;
      unfold BankingServices.upgrade_account in Heq; simpl in Heq;
      revert Heq; to_suffixes; intros Heq;
      apply append_cancel_l in Heq; discriminate Heq.
  - intros level Hlevel. open_hyps; subst;
      unfold BankingServices.upgrade_account, BankingServices.apply_discount;
      simpl; to_suffixes; split; intros Heq.
    all: try (apply append_cancel_l in Heq; discriminate Heq).
    all: apply (f_equal String.length) in Heq;
      rewrite length_append in Heq; simpl in Heq; lia.
Qed.

Lemma upgrade_account_tells_level_witness :
  BankingServices.upgrade_account banking_services SavingsAccount_new "Gold"
  <> account_type SavingsAccount_new.
Proof.
  apply (proj2 (upgrade_account_tells_level _ _ banking_services
                  SavingsAccount_new) "Gold").
  right. right. left. reflexivity.
Defined.
